(** * Operations API test suite: a shallow embedding and its properties

    The repository is a thin layer over an HTTP client, a schema
    library, a fake-data generator and a test runner.  The embedding
    keeps that shape: the repository's own functions are translated
    one by one, and the external collaborators (the random generator
    behind [Faker], the HTTP transport, the JSON text parser, the
    calendar) are the variables of one section, with the part of their
    contract that the repository relies on stated as hypotheses. *)

From Stdlib Require Import List String Ascii ZArith QArith Bool Lia.
From Stdlib Require Import DecimalString DecimalZ.
Import ListNotations.

Local Open Scope string_scope.
Local Open Scope Z_scope.

Set Warnings "-register-all,-notation-for-abbreviation".

(** ** Python values that the code formats or sends *)

(** [str(n)] for a Python [int]. *)
Definition str_of_int (n : Z) : string :=
  NilZero.string_of_int (Z.to_int n).

(** JSON values, as the [json=] argument of the transport receives them
    and as the JSON parser returns them.  An object keeps its entries
    in order, the way a Python [dict] does. *)
Inductive json : Type :=
| JNull
| JBool (b : bool)
| JInt (z : Z)
| JFloat (q : Q)
| JStr (s : string)
| JArr (l : list json)
| JObj (kv : list (string * json)).

Definition is_null (j : json) : bool :=
  match j with JNull => true | _ => false end.

(** [d.get(k)] on an object as it comes out of the JSON parser: of two
    entries with one key the later one is kept. *)
Fixpoint dict_get (k : string) (kv : list (string * json)) : option json :=
  match kv with
  | [] => None
  | (k', v) :: rest =>
      match dict_get k rest with
      | Some w => Some w
      | None => if String.eqb k k' then Some v else None
      end
  end.

Definition keys {A : Type} (kv : list (string * A)) : list string :=
  map fst kv.

(** ** tools/routes.py *)

Inductive APIRoutes : Type :=
| CARDS | CLIENTS | OPERATIONS | STATEMENTS | NOTIFICATIONS.

Definition value (r : APIRoutes) : string :=
  match r with
  | CARDS => "/fakebank/cards"
  | CLIENTS => "/fakebank/clients"
  | OPERATIONS => "/fakebank/accounts"
  | STATEMENTS => "/fakebank/statements"
  | NOTIFICATIONS => "/fakebank/notifications"
  end.

(** [APIRoutes.__str__], which an f-string calls. *)
Definition APIRoutes_str (r : APIRoutes) : string := value r.

Definition all_routes : list APIRoutes :=
  [CARDS; CLIENTS; OPERATIONS; STATEMENTS; NOTIFICATIONS].

(** ** Field values of the schemas *)

(** A value of the annotation [float | str]. *)
Inductive amount : Type :=
| AFloat (q : Q)
| AStr (s : string).

(** A value of the annotation [int | str] of [OperationSchema.id]. *)
Inductive ident : Type :=
| IdInt (z : Z)
| IdStr (s : string).

(** [f"{operation_id}"]. *)
Definition format_id (i : ident) : string :=
  match i with
  | IdInt z => str_of_int z
  | IdStr s => s
  end.

Definition amount_to_json (a : amount) : json :=
  match a with
  | AFloat q => JFloat q
  | AStr s => JStr s
  end.

(** The five fields that the three schemas share, in declaration order. *)
Inductive field : Type :=
| F_debit | F_credit | F_category | F_description | F_transaction_date.

Definition all_fields : list field :=
  [F_debit; F_credit; F_category; F_description; F_transaction_date].

(** The in-memory name of a field. *)
Definition field_name (f : field) : string :=
  match f with
  | F_debit => "debit"
  | F_credit => "credit"
  | F_category => "category"
  | F_description => "description"
  | F_transaction_date => "transaction_date"
  end.

(** The wire name: [Field(alias="transactionDate")] on one field, the
    in-memory name on the others. *)
Definition alias (f : field) : string :=
  match f with
  | F_transaction_date => "transactionDate"
  | _ => field_name f
  end.

Definition field_eqb (f g : field) : bool :=
  match f, g with
  | F_debit, F_debit | F_credit, F_credit | F_category, F_category
  | F_description, F_description
  | F_transaction_date, F_transaction_date => true
  | _, _ => false
  end.

(** ** HTTP requests and responses *)

Inductive http_method : Type := GET | POST | PATCH | DELETE.

Record Request : Type := mkRequest {
  method : http_method;
  url : string;
  json_body : option json
}.

Record Response : Type := mkResponse {
  status_code : Z;
  reason_phrase : string;
  text : string
}.

(** ** Exceptions *)

Inductive error_kind : Type :=
| json_invalid | model_type | missing | invalid_value.

Inductive exn : Type :=
| AssertionError (msg : string)
| ValidationError (errors : list (string * error_kind))
| TransportError (msg : string).

Inductive result (A : Type) : Type :=
| Ok (a : A)
| Raise (e : exn).
Arguments Ok {A} a.
Arguments Raise {A} e.

Definition is_raise {A : Type} (r : result A) : bool :=
  match r with Ok _ => false | Raise _ => true end.

(** One record of the logging module: logger name and message, at level
    INFO. *)
Record LogRecord : Type := mkLog {
  logger_name : string;
  message : string
}.

(** ** Calendar dates

    A [datetime.date] and its [isoformat()], which the JSON mode of
    [model_dump] applies: [YYYY-MM-DD], each part padded with zeros. *)

Record date : Type := mkDate {
  year : Z;
  month : Z;
  day : Z
}.

Fixpoint zeros (n : nat) : string :=
  match n with
  | O => ""
  | S n' => "0" ++ zeros n'
  end.

(** [f"{n:0{width}d}"] for a non-negative [n]. *)
Definition zero_pad (width : nat) (n : Z) : string :=
  let digits := str_of_int n in
  zeros (width - String.length digits) ++ digits.

Definition isoformat (d : date) : string :=
  zero_pad 4 (year d) ++ "-" ++ zero_pad 2 (month d) ++ "-" ++ zero_pad 2 (day d).

(** ** schema/operations.py: the models *)

(** [CreateOperationSchema].  [model_fields_set] is the set that the
    schema library keeps of the fields given explicitly. *)
Record CreateOperationSchema : Type := mkCreate {
  debit : option amount;
  credit : option amount;
  category : string;
  description : string;
  transaction_date : date;
  model_fields_set : list field
}.

(** The keyword arguments of its constructor: [None] for an argument
    that is not passed. *)
Record CreateArgs : Type := mkCreateArgs {
  arg_debit : option (option amount);
  arg_credit : option (option amount);
  arg_category : option string;
  arg_description : option string;
  arg_transaction_date : option date
}.

(** [UpdateOperationSchema]: every field may hold [None]. *)
Record UpdateOperationSchema : Type := mkUpdate {
  u_debit : option amount;
  u_credit : option amount;
  u_category : option string;
  u_description : option string;
  u_transaction_date : option date;
  u_model_fields_set : list field
}.

Record UpdateArgs : Type := mkUpdateArgs {
  uarg_debit : option (option amount);
  uarg_credit : option (option amount);
  uarg_category : option (option string);
  uarg_description : option (option string);
  uarg_transaction_date : option (option date)
}.

(** [OperationSchema(CreateOperationSchema)] adds the required [id]. *)
Record OperationSchema : Type := mkOperation {
  base : CreateOperationSchema;
  id : ident
}.

(** A call of a constructor with no argument. *)
Definition create_no_args : CreateArgs :=
  mkCreateArgs None None None None None.
Definition update_no_args : UpdateArgs :=
  mkUpdateArgs None None None None None.

(** Which fields a call passes. *)
Definition is_some {A : Type} (o : option A) : bool :=
  match o with Some _ => true | None => false end.

Definition create_supplied (a : CreateArgs) (f : field) : bool :=
  match f with
  | F_debit => is_some (arg_debit a)
  | F_credit => is_some (arg_credit a)
  | F_category => is_some (arg_category a)
  | F_description => is_some (arg_description a)
  | F_transaction_date => is_some (arg_transaction_date a)
  end.

Definition update_supplied (a : UpdateArgs) (f : field) : bool :=
  match f with
  | F_debit => is_some (uarg_debit a)
  | F_credit => is_some (uarg_credit a)
  | F_category => is_some (uarg_category a)
  | F_description => is_some (uarg_description a)
  | F_transaction_date => is_some (uarg_transaction_date a)
  end.

(** ** Serialisation: [model_dump(mode='json', ...)]

    A model hands over its fields in declaration order, each with its
    value in JSON mode, or [None] where the Python value is [None]. *)

Definition create_values (r : CreateOperationSchema) : list (field * option json) :=
  [ (F_debit, option_map amount_to_json (debit r));
    (F_credit, option_map amount_to_json (credit r));
    (F_category, Some (JStr (category r)));
    (F_description, Some (JStr (description r)));
    (F_transaction_date, Some (JStr (isoformat (transaction_date r)))) ].

Definition update_values (u : UpdateOperationSchema) : list (field * option json) :=
  [ (F_debit, option_map amount_to_json (u_debit u));
    (F_credit, option_map amount_to_json (u_credit u));
    (F_category, option_map JStr (u_category u));
    (F_description, option_map JStr (u_description u));
    (F_transaction_date,
      option_map (fun d => JStr (isoformat d)) (u_transaction_date u)) ].

Definition dump_key (by_alias : bool) (f : field) : string :=
  if by_alias then alias f else field_name f.

Definition dump_entry (by_alias exclude_none : bool)
    (fv : field * option json) : list (string * json) :=
  match snd fv with
  | Some j => [(dump_key by_alias (fst fv), j)]
  | None => if exclude_none then [] else [(dump_key by_alias (fst fv), JNull)]
  end.

Definition model_dump (by_alias exclude_none : bool)
    (values : list (field * option json)) : json :=
  JObj (flat_map (dump_entry by_alias exclude_none) values).

(** The value that a field of an update request holds is [None]. *)
Definition update_is_none (u : UpdateOperationSchema) (f : field) : bool :=
  match f with
  | F_debit => negb (is_some (u_debit u))
  | F_credit => negb (is_some (u_credit u))
  | F_category => negb (is_some (u_category u))
  | F_description => negb (is_some (u_description u))
  | F_transaction_date => negb (is_some (u_transaction_date u))
  end.

Definition json_keys (j : json) : list string :=
  match j with
  | JObj kv => keys kv
  | _ => []
  end.

(** [None] is sent as [null] when it is not left out. *)
Definition json_or_null (v : option json) : json :=
  match v with
  | Some j => j
  | None => JNull
  end.

(** ** A deterministic stand-in for the collaborators

    Used to run the suite on concrete inputs: a counter for the random
    generator, a backend that numbers its answers, and a parser that
    knows three response bodies. *)

Definition demo_pyfloat (min_value max_value : Q) (g : nat) : Q * nat :=
  (if Nat.even g then min_value else max_value, S g).

Definition demo_random_index (n : nat) (g : nat) : nat * nat :=
  (Nat.modulo g n, S g).

Definition demo_sentence (g : nat) : string * nat :=
  ("Agree style.", S g).

Definition demo_date_between (start end_ : Z) (g : nat) : date * nat :=
  (mkDate 2024 5 1, S g).

Definition demo_operation_json : json :=
  JObj [("id", JInt 7);
        ("debit", JFloat (-85 # 2));
        ("credit", JNull);
        ("category", JStr "taxi");
        ("description", JStr "cab ride");
        ("transactionDate", JStr "2024-05-01")].

Definition demo_json_loads (body : string) : option json :=
  if String.eqb body "operation 7" then Some demo_operation_json
  else if String.eqb body "null id" then Some (JObj [("id", JNull)])
  else if String.eqb body "not found" then Some (JObj [("detail", JStr "Not Found")])
  else None.

Definition demo_date_validate (j : json) : option date :=
  match j with
  | JStr s => if String.eqb s "2024-05-01" then Some (mkDate 2024 5 1) else None
  | _ => None
  end.

Definition demo_transport (req : Request) (w : nat) : result Response * nat :=
  match method req with
  | POST => (Ok (mkResponse 201 "Created" "operation 7"), S w)
  | GET => (Ok (mkResponse 404 "Not Found" "not found"), S w)
  | PATCH => (Ok (mkResponse 200 "OK" "operation 7"), S w)
  | DELETE => (Ok (mkResponse 200 "OK" "null id"), S w)
  end.

(** A backend that answers every request with a server error whose
    body happens to be an Operation. *)
Definition demo_transport_500 (req : Request) (w : nat)
    : result Response * nat :=
  (Ok (mkResponse 500 "Internal Server Error" "operation 7"), S w).

(** What ["operation 7"] parses to. *)
Definition demo_operation : OperationSchema :=
  mkOperation
    (mkCreate (Some (AFloat (-85 # 2))) None "taxi" "cab ride"
              (mkDate 2024 5 1) all_fields)
    (IdInt 7).

(** An update request is built with [category="fuel"] and nothing
    else. *)
Definition only_category_fuel : UpdateArgs :=
  mkUpdateArgs None None (Some (Some "fuel")) None None.

(** A transport that cannot reach the backend. *)
Definition demo_transport_down (req : Request) (w : nat)
    : result Response * nat :=
  (Raise (TransportError "connection refused"), w).

(** The quotation mark that the messages of [assert_equal] put around a
    name. *)
Definition dquote : string := String (ascii_of_nat 34) EmptyString.

(** A backend that answers every request with a server error and a body
    that is no Operation. *)
Definition demo_transport_error (req : Request) (w : nat)
    : result Response * nat :=
  (Ok (mkResponse 500 "Internal Server Error" "not found"), S w).

(** Stand-ins for the decoding of a body and for the schema validator:
    the first knows the bodies of [demo_json_loads], the second takes
    arrays and objects. *)
Definition demo_response_json (response : Response) : result json :=
  match demo_json_loads (text response) with
  | Some j => Ok j
  | None => Raise (ValidationError [("", json_invalid)])
  end.

Definition demo_jsonschema_validate (schema instance : json) : result unit :=
  match instance with
  | JArr _ | JObj _ => Ok tt
  | _ => Raise (ValidationError [("", model_type)])
  end.

(** ** The suite over its external collaborators *)

Section Suite.

(** The random generator behind the [Faker] instance: its state, and
    the draws that [tools/fakers.py] asks for. *)
Variable G : Type.
Variable pyfloat : Q -> Q -> G -> Q * G.
Variable random_index : nat -> G -> nat * G.
Variable faker_sentence : G -> string * G.
Variable date_between : Z -> Z -> G -> date * G.

(** The schema library's JSON text parser and its validator of the
    [date] type on a parsed JSON value. *)
Variable json_loads : string -> option json.
Variable date_validate : json -> option date.

(** The backend behind the HTTP transport: its state, and what it
    answers (or how the transport fails) on a request. *)
Variable W : Type.
Variable transport : Request -> W -> result Response * W.

(** *** Computations that only draw random values *)

Definition Gen (A : Type) : Type := G -> A * G.

Definition gret {A : Type} (a : A) : Gen A := fun g => (a, g).

Definition gbind {A B : Type} (m : Gen A) (k : A -> Gen B) : Gen B :=
  fun g => let (a, g') := m g in k a g'.

Definition gmap {A B : Type} (f : A -> B) (m : Gen A) : Gen B :=
  gbind m (fun a => gret (f a)).

(** [faker.random_element(elements)]: the element at the position the
    generator draws.  Python raises on an empty sequence; the default
    of [nth] stands there and is never returned otherwise. *)
Definition random_element (elements : list string) : Gen string :=
  fun g => let (i, g') := random_index (List.length elements) g in
           (nth i elements "", g').

(** *** tools/fakers.py *)

Definition from_default {A : Type} (default : A) (arg : option A) : A :=
  match arg with Some a => a | None => default end.

(** [Fake.date(start=timedelta(days=-30), end=timedelta())], the two
    [timedelta]s in days. *)
Definition fake_date (start end_ : option Z) : Gen date :=
  date_between (from_default (-30) start) (from_default 0 end_).

(** [Fake.money(start=-100, end=100)]. *)
Definition fake_money (start end_ : option Q) : Gen Q :=
  pyfloat (from_default (-100 # 1)%Q start) (from_default (100 # 1)%Q end_).

Definition categories : list string :=
  ["food"; "taxi"; "fuel"; "beauty"; "restaurants"].

(** [Fake.category()]. *)
Definition fake_category : Gen string :=
  random_element categories.

(** [Fake.sentence()]. *)
Definition fake_sentence : Gen string :=
  faker_sentence.

(** *** schema/operations.py: construction

    [Field(default_factory=...)]: an argument that is passed is taken,
    otherwise the factory is called, field after field in declaration
    order. *)

Definition field_or_default {A : Type} (supplied : option A)
    (default_factory : Gen A) : Gen A :=
  match supplied with
  | Some v => gret v
  | None => default_factory
  end.

Definition money_factory : Gen (option amount) :=
  gmap (fun q => Some (AFloat q)) (fake_money None None).

Definition CreateOperationSchema_init (a : CreateArgs) : Gen CreateOperationSchema :=
  gbind (field_or_default (arg_debit a) money_factory) (fun d =>
  gbind (field_or_default (arg_credit a) money_factory) (fun c =>
  gbind (field_or_default (arg_category a) fake_category) (fun cat =>
  gbind (field_or_default (arg_description a) fake_sentence) (fun desc =>
  gbind (field_or_default (arg_transaction_date a) (fake_date None None))
    (fun td =>
  gret (mkCreate d c cat desc td
          (filter (create_supplied a) all_fields))))))).

Definition UpdateOperationSchema_init (a : UpdateArgs) : Gen UpdateOperationSchema :=
  gbind (field_or_default (uarg_debit a) money_factory) (fun d =>
  gbind (field_or_default (uarg_credit a) money_factory) (fun c =>
  gbind (field_or_default (uarg_category a) (gmap Some fake_category))
    (fun cat =>
  gbind (field_or_default (uarg_description a) (gmap Some fake_sentence))
    (fun desc =>
  gbind (field_or_default (uarg_transaction_date a)
           (gmap Some (fake_date None None))) (fun td =>
  gret (mkUpdate d c cat desc td
          (filter (update_supplied a) all_fields))))))).

(** *** The state of a test and the monad of its code

    A test draws random values, talks to the backend, logs and reports
    steps.  [wire] lists the requests handed to the transport, oldest
    first.  An exception ends the computation and keeps the state
    reached. *)

Record State : Type := mkState {
  rng : G;
  server : W;
  wire : list Request;
  log : list LogRecord;
  steps : list string
}.

Definition M (A : Type) : Type := State -> result A * State.

Definition ret {A : Type} (a : A) : M A := fun s => (Ok a, s).

Definition bind {A B : Type} (m : M A) (k : A -> M B) : M B :=
  fun s =>
    match m s with
    | (Ok a, s') => k a s'
    | (Raise e, s') => (Raise e, s')
    end.

Definition raise {A : Type} (e : exn) : M A := fun s => (Raise e, s).

Notation "x <- m ;; k" := (bind m (fun x => k))
  (at level 61, m at next level, right associativity).
Notation "m ;;; k" := (bind m (fun _ => k))
  (at level 61, right associativity).

Definition lift_gen {A : Type} (m : Gen A) : M A :=
  fun s =>
    let (a, g') := m (rng s) in
    (Ok a, mkState g' (server s) (wire s) (log s) (steps s)).

Definition lift_result {A : Type} (r : result A) : M A :=
  fun s => (r, s).

(** Modelled from the spec: [tools/logger.py] (the [get_logger] helper)
    is not among the sources; the spec has every assertion emit a log
    line, so [logger.info] of a named logger appends one record. *)
Definition logger_info (name msg : string) : M unit :=
  fun s =>
    (Ok tt, mkState (rng s) (server s) (wire s)
                    (log s ++ [mkLog name msg]) (steps s)).

(** [@allure.step(title)]: the step is reported, then the body runs. *)
Definition allure_step {A : Type} (title : string) (body : M A) : M A :=
  fun s =>
    body (mkState (rng s) (server s) (wire s) (log s) (steps s ++ [title])).

(** [assert cond, msg]. *)
Definition py_assert (cond : bool) (msg : string) : M unit :=
  if cond then ret tt else raise (AssertionError msg).

(** *** clients/base_client.py *)

(** A call on the [AsyncClient]: the request goes out, the backend
    moves on, and the response or the transport's exception comes
    back. *)
Definition client_request (req : Request) : M Response :=
  fun s =>
    let (r, w') := transport req (server s) in
    (r, mkState (rng s) w' (wire s ++ [req]) (log s) (steps s)).

Definition get (url : string) : M Response :=
  allure_step ("Make GET request to " ++ url)
    (client_request (mkRequest GET url None)).

Definition post (url : string) (json : option json) : M Response :=
  allure_step ("Make POST request to " ++ url)
    (client_request (mkRequest POST url json)).

Definition patch (url : string) (json : option json) : M Response :=
  allure_step ("Make PATCH request to " ++ url)
    (client_request (mkRequest PATCH url json)).

Definition delete (url : string) : M Response :=
  allure_step ("Make DELETE request to " ++ url)
    (client_request (mkRequest DELETE url None)).

(** *** schema/operations.py: validation of a JSON document

    The validators of the annotations, on a parsed JSON value in the
    library's default (lax, smart-union) mode. *)

(** [float | str | None]. *)
Definition validate_amount (j : json) : option (option amount) :=
  match j with
  | JNull => Some None
  | JFloat q => Some (Some (AFloat q))
  | JInt z => Some (Some (AFloat (inject_Z z)))
  | JStr s => Some (Some (AStr s))
  | JBool b => Some (Some (AFloat (if b then 1 else 0)%Q))
  | JArr _ | JObj _ => None
  end.

(** [str]. *)
Definition validate_str (j : json) : option string :=
  match j with
  | JStr s => Some s
  | _ => None
  end.

(** [int | str]: no member of the union takes [null]. *)
Definition validate_id (j : json) : option ident :=
  match j with
  | JInt z => Some (IdInt z)
  | JStr s => Some (IdStr s)
  | JFloat q =>
      if (Qnum q mod Zpos (Qden q) =? 0)
      then Some (IdInt (Qnum q / Zpos (Qden q)))
      else None
  | JBool b => Some (IdInt (if b then 1 else 0))
  | JNull | JArr _ | JObj _ => None
  end.

(** [populate_by_name=True]: a field is read under its alias, and under
    its own name when the alias is absent. *)
Definition lookup_field (f : field) (kv : list (string * json)) : option json :=
  match dict_get (alias f) kv with
  | Some v => Some v
  | None => dict_get (field_name f) kv
  end.

Definition errors_of {A : Type} (r : list (string * error_kind) + A)
    : list (string * error_kind) :=
  match r with
  | inl e => e
  | inr _ => []
  end.

(** One field with a default factory: validate the value found, or call
    the factory when the document has none. *)
Definition validate_field {A : Type} (f : field) (validator : json -> option A)
    (default_factory : Gen A) (kv : list (string * json))
    : Gen (list (string * error_kind) + A) :=
  match lookup_field f kv with
  | Some j =>
      match validator j with
      | Some a => gret (inr a)
      | None => gret (inl [(alias f, invalid_value)])
      end
  | None => gmap inr default_factory
  end.

(** The required [id]: no default. *)
Definition validate_required_id (kv : list (string * json))
    : list (string * error_kind) + ident :=
  match dict_get "id" kv with
  | Some j =>
      match validate_id j with
      | Some i => inr i
      | None => inl [("id", invalid_value)]
      end
  | None => inl [("id", missing)]
  end.

Definition present (kv : list (string * json)) (f : field) : bool :=
  is_some (lookup_field f kv).

(** The fields are validated in order, the inherited ones first, and
    the errors of all of them are collected. *)
Definition OperationSchema_validate_fields (kv : list (string * json))
    : Gen (result OperationSchema) :=
  gbind (validate_field F_debit validate_amount money_factory kv) (fun d =>
  gbind (validate_field F_credit validate_amount money_factory kv) (fun c =>
  gbind (validate_field F_category validate_str fake_category kv) (fun cat =>
  gbind (validate_field F_description validate_str fake_sentence kv)
    (fun desc =>
  gbind (validate_field F_transaction_date date_validate
           (fake_date None None) kv) (fun td =>
  let i := validate_required_id kv in
  gret
    match d, c, cat, desc, td, i with
    | inr d', inr c', inr cat', inr desc', inr td', inr i' =>
        Ok (mkOperation
              (mkCreate d' c' cat' desc' td' (filter (present kv) all_fields))
              i')
    | _, _, _, _, _, _ =>
        Raise (ValidationError
                 (errors_of d ++ errors_of c ++ errors_of cat ++
                  errors_of desc ++ errors_of td ++ errors_of i))
    end))))).

(** [OperationSchema.model_validate_json(text)]. *)
Definition OperationSchema_model_validate_json (body : string)
    : M OperationSchema :=
  match json_loads body with
  | None => raise (ValidationError [("", json_invalid)])
  | Some (JObj kv) =>
      r <- lift_gen (OperationSchema_validate_fields kv) ;; lift_result r
  | Some _ => raise (ValidationError [("", model_type)])
  end.

(** *** clients/operations_client.py *)

Definition get_operations_api : M Response :=
  allure_step "Get list of operations"
    (get (value OPERATIONS)).

Definition get_operation_api (operation_id : ident) : M Response :=
  allure_step ("Get operation by id " ++ format_id operation_id)
    (get (APIRoutes_str OPERATIONS ++ "/" ++ format_id operation_id)).

Definition create_operation_api (operation : CreateOperationSchema)
    : M Response :=
  allure_step "Create operation"
    (post (value OPERATIONS)
          (Some (model_dump true false (create_values operation)))).

Definition update_operation_api (operation_id : ident)
    (operation : UpdateOperationSchema) : M Response :=
  allure_step ("Update operation by id " ++ format_id operation_id)
    (patch (APIRoutes_str OPERATIONS ++ "/" ++ format_id operation_id)
           (Some (model_dump true true (update_values operation)))).

Definition delete_operation_api (operation_id : ident) : M Response :=
  allure_step ("Delete operation by id " ++ format_id operation_id)
    (delete (APIRoutes_str OPERATIONS ++ "/" ++ format_id operation_id)).

Definition create_operation : M OperationSchema :=
  request <- lift_gen (CreateOperationSchema_init create_no_args) ;;
  response <- create_operation_api request ;;
  OperationSchema_model_validate_json (text response).

(** *** tools/assertions/base.py *)

Definition assert_status_code (actual expected : Z) : M unit :=
  allure_step
    ("Check that response status code equals to " ++ str_of_int expected)
    (logger_info "BASE_ASSERTIONS"
       ("Check that response status code equals to " ++ str_of_int expected) ;;;
     py_assert (actual =? expected)
       ("Incorrect response status code. " ++
        "Expected status code: " ++ str_of_int expected ++ ". " ++
        "Actual status code: " ++ str_of_int actual)).

(** *** fixtures/operations.py

    A generator fixture is the code before its [yield], which makes the
    value handed to the test, and the code after it. *)

Record Fixture (A : Type) : Type := mkFixture {
  before_yield : M A;
  after_yield : A -> M unit
}.
Arguments before_yield {A} f.
Arguments after_yield {A} f.

Definition function_operation : Fixture OperationSchema :=
  mkFixture OperationSchema
    create_operation
    (fun operation => delete_operation_api (id operation) ;;; ret tt).

(** What the test runner reports of one test that uses one fixture. *)
Inductive Outcome : Type :=
| SetupError (e : exn)
| Ran (call : result unit) (teardown : result unit).

(** The runner's protocol for a generator fixture: the fixture runs up
    to its [yield]; when that raises, the test is not called and
    nothing of the fixture is resumed; otherwise the test body is
    called with the value, and the fixture is resumed after the body
    has returned or raised. *)
Definition run_test {A : Type} (fx : Fixture A) (test_body : A -> M unit)
    : State -> Outcome * State :=
  fun s =>
    match before_yield fx s with
    | (Raise e, s1) => (SetupError e, s1)
    | (Ok a, s1) =>
        let (call, s2) := test_body a s1 in
        let (teardown, s3) := after_yield fx a s2 in
        (Ran call teardown, s3)
    end.

(** The requests that a computation hands to the transport from a
    state on. *)
Definition requests_of {A : Type} (m : M A) (s : State) : list Request :=
  skipn (List.length (wire s)) (wire (snd (m s))).

(** What [create_operation_api] hands to the transport for a request. *)
Definition create_request_of (request : CreateOperationSchema) : Request :=
  mkRequest POST (value OPERATIONS)
    (Some (model_dump true false (create_values request))).

(** The request that [CreateOperationSchema()] builds from a state. *)
Definition default_create_request (s : State) : CreateOperationSchema :=
  fst (CreateOperationSchema_init create_no_args (rng s)).

(** The state in which [create_operation] parses the response: the
    generator after the five draws, the backend after the request. *)
Definition after_create_request (s : State) (w' : W) : State :=
  mkState (snd (CreateOperationSchema_init create_no_args (rng s))) w'
          (wire s ++ [create_request_of (default_create_request s)])
          (log s)
          (steps s ++ ["Create operation";
                       "Make POST request to /fakebank/accounts"]).

(** *** tools/assertions/base.py: the generic assertion

    [assert_equal(actual, expected, name)] on values of one type, with
    that type's [==] and its formatting in an f-string. *)

Definition assert_equal {A : Type} (py_eq : A -> A -> bool)
    (py_format : A -> string) (actual expected : A) (name : string) : M unit :=
  allure_step
    ("Check that " ++ name ++ " equals to " ++ py_format expected)
    (logger_info "BASE_ASSERTIONS"
       ("Check that " ++ dquote ++ name ++ dquote ++ " equals to " ++
        py_format expected) ;;;
     py_assert (py_eq actual expected)
       ("Incorrect value: " ++ dquote ++ name ++ dquote ++ ". " ++
        "Expected value: " ++ py_format expected ++ ". " ++
        "Actual value: " ++ py_format actual)).

(** *** tests/test_operations.py *)

(** [HTTPStatus.OK] and [HTTPStatus.NOT_FOUND]. *)
Definition HTTPStatus_OK : Z := 200.
Definition HTTPStatus_NOT_FOUND : Z := 404.

(** [TestOperations.test_delete_operation], given the fixture's
    Operation. *)
Definition test_delete_operation (function_operation : OperationSchema)
    : M unit :=
  delete_response <- delete_operation_api (id function_operation) ;;
  assert_status_code (status_code delete_response) HTTPStatus_OK ;;;
  get_response <- get_operation_api (id function_operation) ;;
  assert_status_code (status_code get_response) HTTPStatus_NOT_FOUND.

(** *** tools/assertions/schema.py and the tests that use it

    What these functions call outside the repository's sources, as
    one record: the decoding of a response body by the HTTP library
    ([response.json()], which raises on a body that is not JSON), the
    JSON Schema validator with its format checker, the schema
    documents that the schema library derives from the models, and
    [assert_create_operation] of [tools/assertions/operations.py],
    which is not among the sources. *)

Record Checks : Type := mkChecks {
  response_json : Response -> result json;
  jsonschema_validate : json -> json -> result unit;
  OperationsSchema_model_json_schema : json;
  OperationSchema_model_json_schema : json;
  assert_create_operation : OperationSchema -> CreateOperationSchema -> M unit
}.

(** [validate_json_schema(instance, schema)]. *)
Definition validate_json_schema (c : Checks) (instance schema : json)
    : M unit :=
  allure_step "Validating JSON schema"
    (logger_info "SCHEMA_ASSERTIONS" "Validating JSON schema" ;;;
     lift_result (jsonschema_validate c schema instance)).

Definition HTTPStatus_CREATED : Z := 201.

(** [TestOperations.test_get_operations]. *)
Definition test_get_operations (c : Checks) : M unit :=
  response <- get_operations_api ;;
  assert_status_code (status_code response) HTTPStatus_OK ;;;
  instance <- lift_result (response_json c response) ;;
  validate_json_schema c instance (OperationsSchema_model_json_schema c).

(** [TestOperations.test_create_operation]: the body is parsed before
    the status code is looked at. *)
Definition test_create_operation (c : Checks) : M unit :=
  request <- lift_gen (CreateOperationSchema_init create_no_args) ;;
  response <- create_operation_api request ;;
  operation <- OperationSchema_model_validate_json (text response) ;;
  assert_status_code (status_code response) HTTPStatus_CREATED ;;;
  assert_create_operation c operation request ;;;
  instance <- lift_result (response_json c response) ;;
  validate_json_schema c instance (OperationSchema_model_json_schema c).

(** *** Vocabulary of the properties *)

(** The validator of a field takes a JSON value. *)
Definition field_accepts (f : field) (j : json) : bool :=
  match f with
  | F_debit | F_credit => is_some (validate_amount j)
  | F_category | F_description => is_some (validate_str j)
  | F_transaction_date => is_some (date_validate j)
  end.

(** A field is absent from a document, or its validator takes what the
    document holds for it. *)
Definition accepts_present (kv : list (string * json)) (f : field) : bool :=
  match lookup_field f kv with
  | Some j => field_accepts f j
  | None => true
  end.

(** A document holds an [id] that the [int | str] validator takes. *)
Definition id_ok (kv : list (string * json)) : bool :=
  match dict_get "id" kv with
  | Some j => is_some (validate_id j)
  | None => false
  end.

Definition is_inr {A B : Type} (r : A + B) : bool :=
  match r with
  | inr _ => true
  | inl _ => false
  end.

(** A call returns what the transport answers to one request, moves the
    backend as the transport does, and neither draws nor logs. *)
Definition returns_raw (call : M Response) (req : Request) (s : State)
    : Prop :=
  fst (call s) = fst (transport req (server s)) /\
  server (snd (call s)) = snd (transport req (server s)) /\
  rng (snd (call s)) = rng s /\
  log (snd (call s)) = log s.

(** The DELETE and the GET of one Operation. *)
Definition delete_request_of (i : ident) : Request :=
  mkRequest DELETE (APIRoutes_str OPERATIONS ++ "/" ++ format_id i) None.

Definition get_request_of (i : ident) : Request :=
  mkRequest GET (APIRoutes_str OPERATIONS ++ "/" ++ format_id i) None.

(** ** Properties *)

Lemma skipn_length_app {A : Type} (l l' : list A) :
  skipn (List.length l) (l ++ l')%list = l'.
Proof.
  induction l as [| a l IH]; simpl; [reflexivity | exact IH].
Qed.

(** A call on the client adds its request, and nothing else, to the
    wire. *)
Lemma wire_client_request (req : Request) (s : State) :
  wire (snd (client_request req s)) = (wire s ++ [req])%list.
Proof.
  unfold client_request.
  destruct (transport req (server s)) as [r w']; reflexivity.
Qed.

Lemma requests_of_step_request {A : Type} (title : string) (req : Request)
    (s : State) :
  requests_of (allure_step title (client_request req)) s = [req].
Proof.
  unfold requests_of, allure_step.
  rewrite wire_client_request; simpl.
  apply skipn_length_app.
Qed.

Lemma requests_of_step {A : Type} (title : string) (m : M A) (s : State) :
  requests_of (allure_step title m) s =
  requests_of m
    (mkState (rng s) (server s) (wire s) (log s) (steps s ++ [title])%list).
Proof. reflexivity. Qed.

Ltac one_request :=
  intros; rewrite requests_of_step;
  unfold get, post, patch, delete;
  rewrite (requests_of_step_request (A := Response)); reflexivity.

Lemma requests_get_operations_api (s : State) :
  requests_of get_operations_api s = [mkRequest GET "/fakebank/accounts" None].
Proof. unfold get_operations_api. one_request. Qed.

Lemma requests_get_operation_api (operation_id : ident) (s : State) :
  requests_of (get_operation_api operation_id) s =
  [mkRequest GET ("/fakebank/accounts/" ++ format_id operation_id) None].
Proof. unfold get_operation_api. one_request. Qed.

Lemma requests_delete_operation_api (operation_id : ident) (s : State) :
  requests_of (delete_operation_api operation_id) s =
  [mkRequest DELETE ("/fakebank/accounts/" ++ format_id operation_id) None].
Proof. unfold delete_operation_api. one_request. Qed.

Lemma requests_create_operation_api (operation : CreateOperationSchema)
    (s : State) :
  requests_of (create_operation_api operation) s =
  [mkRequest POST "/fakebank/accounts"
     (Some (model_dump true false (create_values operation)))].
Proof. unfold create_operation_api. one_request. Qed.

Lemma requests_update_operation_api (operation_id : ident)
    (operation : UpdateOperationSchema) (s : State) :
  requests_of (update_operation_api operation_id operation) s =
  [mkRequest PATCH ("/fakebank/accounts/" ++ format_id operation_id)
     (Some (model_dump true true (update_values operation)))].
Proof. unfold update_operation_api. one_request. Qed.

(** *** Routes and URLs *)

(** C7: the route table is a total map from the five resource names to
    fixed paths, [OPERATIONS] is ["/fakebank/accounts"] and renders as
    that string in an f-string, and the five calls of the operations
    client go to ["/fakebank/accounts"] (list, create) and to
    ["/fakebank/accounts/{id}"] (get, update, delete). *)
Theorem route_table_and_operation_urls :
  (forall r : APIRoutes, In r all_routes) /\
  map value all_routes =
    ["/fakebank/cards"; "/fakebank/clients"; "/fakebank/accounts";
     "/fakebank/statements"; "/fakebank/notifications"] /\
  (forall r : APIRoutes, APIRoutes_str r = value r) /\
  APIRoutes_str OPERATIONS = "/fakebank/accounts" /\
  (forall s, map (fun r => (method r, url r)) (requests_of get_operations_api s)
             = [(GET, "/fakebank/accounts")]) /\
  (forall operation s,
      map (fun r => (method r, url r))
          (requests_of (create_operation_api operation) s)
      = [(POST, "/fakebank/accounts")]) /\
  (forall i s,
      map (fun r => (method r, url r)) (requests_of (get_operation_api i) s)
      = [(GET, "/fakebank/accounts/" ++ format_id i)]) /\
  (forall i operation s,
      map (fun r => (method r, url r))
          (requests_of (update_operation_api i operation) s)
      = [(PATCH, "/fakebank/accounts/" ++ format_id i)]) /\
  (forall i s,
      map (fun r => (method r, url r)) (requests_of (delete_operation_api i) s)
      = [(DELETE, "/fakebank/accounts/" ++ format_id i)]).
Proof.
  repeat split.
  - intros r; destruct r; simpl; tauto.
  - intros s; rewrite requests_get_operations_api; reflexivity.
  - intros operation s; rewrite requests_create_operation_api; reflexivity.
  - intros i s; rewrite requests_get_operation_api; reflexivity.
  - intros i operation s; rewrite requests_update_operation_api; reflexivity.
  - intros i s; rewrite requests_delete_operation_api; reflexivity.
Qed.

(** *** Payloads *)

(** C4: [create_operation_api] posts the request as a JSON object that
    holds all five fields, [transaction_date] under the key
    [transactionDate] and the others under their own names; a field
    that is [None] is sent as [null], not left out. *)
Theorem create_payload_has_every_field (operation : CreateOperationSchema)
    (s : State) :
  requests_of (create_operation_api operation) s =
  [mkRequest POST "/fakebank/accounts"
     (Some (JObj
        [("debit", json_or_null (option_map amount_to_json (debit operation)));
         ("credit", json_or_null (option_map amount_to_json (credit operation)));
         ("category", JStr (category operation));
         ("description", JStr (description operation));
         ("transactionDate", JStr (isoformat (transaction_date operation)))]))].
Proof.
  rewrite requests_create_operation_api.
  unfold model_dump, create_values; simpl.
  destruct (debit operation), (credit operation); reflexivity.
Qed.

Lemma alias_injective (f g : field) : alias f = alias g -> f = g.
Proof. destruct f, g; simpl; intros H; first [reflexivity | discriminate H]. Qed.

(** The keys of a dump with [exclude_none]: the aliases of the fields
    that hold a value, in declaration order. *)
Lemma update_dump_keys (operation : UpdateOperationSchema) :
  json_keys (model_dump true true (update_values operation)) =
  map alias (filter (fun f => negb (update_is_none operation f)) all_fields).
Proof.
  unfold model_dump, update_values, update_is_none; simpl.
  destruct (u_debit operation), (u_credit operation), (u_category operation),
    (u_description operation), (u_transaction_date operation); reflexivity.
Qed.

(** Name the results of the draws that a goal mentions, innermost
    first. *)
Ltac draws :=
  unfold fake_money, fake_category, fake_sentence, fake_date, random_element,
    from_default;
  repeat match goal with
         | |- context [pyfloat ?a ?b ?g] => destruct (pyfloat a b g); simpl
         | |- context [random_index ?n ?g] => destruct (random_index n g); simpl
         | |- context [faker_sentence ?g] => destruct (faker_sentence g); simpl
         | |- context [date_between ?a ?b ?g] =>
             destruct (date_between a b g); simpl
         end.

(** A field that the constructor is not given comes out of its default
    factory, which returns a value. *)
Lemma update_init_fills_defaults (a : UpdateArgs) (g : G) (f : field) :
  update_supplied a f = false ->
  update_is_none (fst (UpdateOperationSchema_init a g)) f = false.
Proof.
  intros N.
  unfold UpdateOperationSchema_init, field_or_default, money_factory, gmap,
    gbind, gret.
  destruct a as [[ad |] [ac |] [acat |] [adesc |] [atd |]];
    destruct f; simpl in N; try discriminate N; simpl;
    draws; reflexivity.
Qed.

(** C1, as the code has it: [update_operation_api] sends, as the body
    of a PATCH to the operation's URL, the request under its wire
    aliases without the fields whose value is [None], and with every
    other field; a field that the constructor was not given is filled
    by its default factory, holds a value, and is sent. *)
Theorem update_payload_omits_none_fields (operation_id : ident)
    (operation : UpdateOperationSchema) (s : State) :
  exists payload : list (string * json),
    requests_of (update_operation_api operation_id operation) s =
      [mkRequest PATCH ("/fakebank/accounts/" ++ format_id operation_id)
         (Some (JObj payload))] /\
    keys payload =
      map alias (filter (fun f => negb (update_is_none operation f)) all_fields) /\
    (forall f, In (alias f) (keys payload) <-> update_is_none operation f = false) /\
    ~ In "transaction_date" (keys payload) /\
    (forall f j, In (f, Some j) (update_values operation) ->
                 In (alias f, j) payload) /\
    (forall (a : UpdateArgs) (g : G) (f : field),
        update_supplied a f = false ->
        update_is_none (fst (UpdateOperationSchema_init a g)) f = false).
Proof.
  exists (flat_map (dump_entry true true) (update_values operation)).
  assert (K : keys (flat_map (dump_entry true true) (update_values operation)) =
              map alias (filter (fun f => negb (update_is_none operation f))
                                all_fields)).
  { exact (update_dump_keys operation). }
  split; [apply requests_update_operation_api |].
  split; [exact K |].
  split.
  { intros f; rewrite K, in_map_iff; split.
    - intros [g [E I]]. apply alias_injective in E; subst g.
      apply filter_In in I. destruct I as [_ I].
      destruct (update_is_none operation f); [discriminate I | reflexivity].
    - intros N. exists f; split; [reflexivity |].
      apply filter_In; split; [destruct f; simpl; tauto | rewrite N; reflexivity]. }
  split.
  { rewrite K, in_map_iff. intros [g [E _]]. destruct g; discriminate E. }
  split.
  { intros f j I. apply in_flat_map. exists (f, Some j); split; [exact I |].
    left; reflexivity. }
  exact update_init_fills_defaults.
Qed.

(** C5: an [UpdateOperationSchema] built with no argument holds a value
    in each of its five fields, and the PATCH payload made from it has
    the five keys. *)
Theorem default_update_payload_is_full (g : G) (operation_id : ident)
    (s : State) :
  let operation := fst (UpdateOperationSchema_init update_no_args g) in
  (forall f, update_is_none operation f = false) /\
  u_model_fields_set operation = [] /\
  map (fun r => option_map json_keys (json_body r))
      (requests_of (update_operation_api operation_id operation) s) =
  [Some ["debit"; "credit"; "category"; "description"; "transactionDate"]].
Proof.
  assert (N : forall f,
             update_is_none (fst (UpdateOperationSchema_init update_no_args g)) f
             = false).
  { intros f. apply update_init_fills_defaults. destruct f; reflexivity. }
  cbv zeta. split; [exact N |]. split.
  { unfold UpdateOperationSchema_init, field_or_default, money_factory, gmap,
      gbind, gret; simpl.
    draws. reflexivity. }
  rewrite requests_update_operation_api.
  cbn [map json_body option_map].
  rewrite update_dump_keys.
  unfold all_fields; cbn [filter]. rewrite !N. reflexivity.
Qed.

(** *** Assertions *)

(** C8: [assert_status_code] raises an [AssertionError] exactly when
    the two codes differ, its message names the expected and the
    actual code, and one log line is emitted (and one step reported)
    whether the codes match or not. *)
Theorem assert_status_code_raises_iff_mismatch (actual expected : Z)
    (s : State) :
  fst (assert_status_code actual expected s) =
    (if actual =? expected then Ok tt
     else Raise (AssertionError
            ("Incorrect response status code. Expected status code: " ++
             str_of_int expected ++ ". Actual status code: " ++
             str_of_int actual))) /\
  (is_raise (fst (assert_status_code actual expected s)) = true
   <-> actual <> expected) /\
  log (snd (assert_status_code actual expected s)) =
    (log s ++ [mkLog "BASE_ASSERTIONS"
                 ("Check that response status code equals to " ++
                  str_of_int expected)%string])%list /\
  steps (snd (assert_status_code actual expected s)) =
    (steps s ++ [("Check that response status code equals to " ++
                  str_of_int expected)%string])%list.
Proof.
  unfold assert_status_code, allure_step, bind, logger_info, py_assert, ret,
    raise; simpl.
  destruct (Z.eqb_spec actual expected) as [E | N]; simpl.
  - repeat split; try reflexivity.
    + intros H; discriminate H.
    + intros H; contradiction.
  - repeat split; try reflexivity. intros _; exact N.
Qed.

(** *** Parsing an Operation *)

Lemma dict_get_In (k : string) (kv : list (string * json)) (v : json) :
  dict_get k kv = Some v -> In (k, v) kv.
Proof.
  induction kv as [| [k' v'] rest IH]; simpl; [discriminate |].
  destruct (dict_get k rest) as [w |].
  - intros H; right; apply IH; exact H.
  - destruct (String.eqb_spec k k') as [E | N]; [| discriminate].
    intros H; injection H as H; subst; left; reflexivity.
Qed.

(** The validation of the fields succeeds only with the [id] that the
    validator of [int | str] made of the document's [id]. *)
Lemma validate_fields_id (kv : list (string * json)) (g g' : G)
    (operation : OperationSchema) :
  OperationSchema_validate_fields kv g = (Ok operation, g') ->
  validate_required_id kv = inr (id operation).
Proof.
  unfold OperationSchema_validate_fields, gbind, gret.
  repeat match goal with
         | |- context [let (_, _) := ?p in _] => destruct p
         end.
  repeat match goal with
         | x : (_ + _)%type |- _ => destruct x
         end;
    destruct (validate_required_id kv); intros H; inversion H; reflexivity.
Qed.

Lemma validate_json_ok (body : string) (s s' : State)
    (operation : OperationSchema) :
  OperationSchema_model_validate_json body s = (Ok operation, s') ->
  exists kv g',
    json_loads body = Some (JObj kv) /\
    OperationSchema_validate_fields kv (rng s) = (Ok operation, g').
Proof.
  unfold OperationSchema_model_validate_json, raise.
  destruct (json_loads body) as [[| b | z | q | str | l | kv] |];
    try (intros H; discriminate H).
  unfold bind, lift_gen, lift_result.
  destruct (OperationSchema_validate_fields kv (rng s)) as [r g'] eqn:E.
  destruct r as [op | e]; intros H; inversion H; subst.
  exists kv, g'; split; [reflexivity | exact E].
Qed.

(** C3: a JSON document parses as an [OperationSchema] only if it is an
    object with an [id] entry that is not [null]; the parsed
    Operation's [id] is what the [int | str] validator makes of that
    entry. *)
Theorem parsed_operation_has_id (body : string) (s s' : State)
    (operation : OperationSchema) :
  OperationSchema_model_validate_json body s = (Ok operation, s') ->
  exists (kv : list (string * json)) (j : json),
    json_loads body = Some (JObj kv) /\
    In ("id", j) kv /\
    j <> JNull /\
    dict_get "id" kv = Some j /\
    validate_id j = Some (id operation).
Proof.
  intros H.
  destruct (validate_json_ok body s s' operation H) as [kv [g' [L V]]].
  apply validate_fields_id in V.
  unfold validate_required_id in V.
  destruct (dict_get "id" kv) as [j |] eqn:D; [| discriminate V].
  destruct (validate_id j) as [i |] eqn:I; [| discriminate V].
  injection V as V; subst i.
  exists kv, j. repeat split; try assumption.
  - apply dict_get_In; exact D.
  - intros N; subst j; discriminate I.
Qed.

(** Parsing raises nothing but the schema library's validation
    error. *)
Lemma validate_fields_raises_validation_error (kv : list (string * json))
    (g : G) (e : exn) :
  fst (OperationSchema_validate_fields kv g) = Raise e ->
  exists errors, e = ValidationError errors.
Proof.
  unfold OperationSchema_validate_fields, gbind, gret.
  repeat match goal with
         | |- context [let (_, _) := ?p in _] => destruct p
         end.
  repeat match goal with
         | x : (_ + _)%type |- _ => destruct x
         end;
    destruct (validate_required_id kv); simpl; intros H;
    first [discriminate H | injection H as H; subst e; eexists; reflexivity].
Qed.

Lemma validate_json_raises_validation_error (body : string) (s : State)
    (e : exn) :
  fst (OperationSchema_model_validate_json body s) = Raise e ->
  exists errors, e = ValidationError errors.
Proof.
  unfold OperationSchema_model_validate_json, raise.
  destruct (json_loads body) as [[| b | z | q | str | l | kv] |]; simpl;
    try (intros H; injection H as H; subst e; eexists; reflexivity).
  unfold bind, lift_gen, lift_result.
  pose proof (validate_fields_raises_validation_error kv (rng s)) as V.
  destruct (OperationSchema_validate_fields kv (rng s)) as [r g'].
  destruct r as [op | e']; simpl; intros H; [discriminate H |].
  injection H as H; subst e'. apply V; reflexivity.
Qed.

Lemma wire_validate_json (body : string) (s : State) :
  wire (snd (OperationSchema_model_validate_json body s)) = wire s.
Proof.
  unfold OperationSchema_model_validate_json, raise.
  destruct (json_loads body) as [[| b | z | q | str | l | kv] |]; simpl;
    try reflexivity.
  unfold bind, lift_gen, lift_result.
  destruct (OperationSchema_validate_fields kv (rng s)) as [r g'].
  destruct r; reflexivity.
Qed.

(** *** The convenience call and the fixture *)

Lemma default_create_request_fields (s : State) :
  model_fields_set (default_create_request s) = [] /\
  json_body (create_request_of (default_create_request s)) =
    Some (JObj
      [("debit", json_or_null
                   (option_map amount_to_json (debit (default_create_request s))));
       ("credit", json_or_null
                    (option_map amount_to_json (credit (default_create_request s))));
       ("category", JStr (category (default_create_request s)));
       ("description", JStr (description (default_create_request s)));
       ("transactionDate",
         JStr (isoformat (transaction_date (default_create_request s))))]).
Proof.
  split.
  - unfold default_create_request, CreateOperationSchema_init, field_or_default,
      money_factory, gmap, gbind, gret; simpl.
    draws. reflexivity.
  - unfold create_request_of, model_dump, create_values; simpl.
    destruct (debit (default_create_request s)),
      (credit (default_create_request s)); reflexivity.
Qed.

(** Whatever the transport does, [create_operation] has handed it the
    POST of the default request, and nothing else. *)
Lemma wire_create_operation (s : State) :
  wire (snd (create_operation s)) =
  (wire s ++ [create_request_of (default_create_request s)])%list.
Proof.
  unfold create_operation, bind, lift_gen, default_create_request.
  destruct (CreateOperationSchema_init create_no_args (rng s))
    as [request g'].
  unfold create_operation_api, post, allure_step; simpl.
  match goal with
  | |- context [client_request ?r ?st] =>
      pose proof (wire_client_request r st) as Wr;
      destruct (client_request r st) as [[response | e] s1]
  end; simpl in *.
  - rewrite wire_validate_json. exact Wr.
  - exact Wr.
Qed.

(** C2: [create_operation] builds [CreateOperationSchema()] (no field
    given, each one drawn), posts it through [create_operation_api],
    and returns what parsing the response body yields: the status code
    is not looked at, and a body that does not parse raises the
    parser's [ValidationError] to the caller. *)
Theorem create_operation_parses_any_response (s : State)
    (response : Response) (w' : W) :
  transport (create_request_of (default_create_request s)) (server s)
    = (Ok response, w') ->
  model_fields_set (default_create_request s) = [] /\
  requests_of create_operation s =
    [create_request_of (default_create_request s)] /\
  create_operation s =
    OperationSchema_model_validate_json (text response)
      (after_create_request s w') /\
  (forall e, fst (create_operation s) = Raise e ->
             exists errors, e = ValidationError errors) /\
  (forall e s2,
      OperationSchema_model_validate_json (text response)
        (after_create_request s w') = (Raise e, s2) ->
      create_operation s = (Raise e, s2)) /\
  (json_loads (text response) = None ->
   fst (create_operation s) = Raise (ValidationError [("", json_invalid)])).
Proof.
  intros T.
  assert (E : create_operation s =
              OperationSchema_model_validate_json (text response)
                (after_create_request s w')).
  { unfold after_create_request.
    revert T. unfold default_create_request, create_request_of.
    unfold create_operation, bind, lift_gen.
    destruct (CreateOperationSchema_init create_no_args (rng s))
      as [request g']; simpl.
    intros T.
    unfold create_operation_api, post, allure_step, client_request; simpl.
    rewrite T. rewrite <- app_assoc. reflexivity. }
  split; [apply default_create_request_fields |].
  split.
  { unfold requests_of. rewrite wire_create_operation.
    apply skipn_length_app. }
  split; [exact E |].
  split.
  { intros e R. rewrite E in R.
    exact (validate_json_raises_validation_error _ _ _ R). }
  split.
  { intros e s2 R. rewrite E. exact R. }
  intros L. rewrite E.
  unfold OperationSchema_model_validate_json. rewrite L. reflexivity.
Qed.

Lemma wire_delete_then_return (operation_id : ident) (s : State) :
  wire (snd ((delete_operation_api operation_id ;;; ret tt) s)) =
  (wire s ++ [mkRequest DELETE
                ("/fakebank/accounts/" ++ format_id operation_id)%string
                None])%list.
Proof.
  unfold bind, delete_operation_api, delete, allure_step; simpl.
  match goal with
  | |- context [client_request ?r ?st] =>
      pose proof (wire_client_request r st) as Wr;
      destruct (client_request r st) as [[response | e] s1]
  end; exact Wr.
Qed.

(** C6: when [create_operation] has made the fixture's Operation, the
    test body runs on it from the state that the creation left, and
    once the body has returned or raised, the fixture hands the
    transport the DELETE of that Operation's id, next after the body's
    own requests. *)
Theorem function_operation_deletes_after_test
    (test_body : OperationSchema -> M unit) (s s1 : State)
    (operation : OperationSchema) :
  create_operation s = (Ok operation, s1) ->
  exists (call teardown : result unit) (s2 s3 : State),
    wire s1 = (wire s ++ [create_request_of (default_create_request s)])%list /\
    test_body operation s1 = (call, s2) /\
    run_test function_operation test_body s = (Ran call teardown, s3) /\
    wire s3 =
      (wire s2 ++ [mkRequest DELETE
                     ("/fakebank/accounts/" ++ format_id (id operation))%string
                     None])%list.
Proof.
  intros C.
  destruct (test_body operation s1) as [call s2] eqn:B.
  destruct ((delete_operation_api (id operation) ;;; ret tt) s2)
    as [teardown s3] eqn:D.
  exists call, teardown, s2, s3.
  split.
  { pose proof (wire_create_operation s) as Wc. rewrite C in Wc. exact Wc. }
  split; [reflexivity |].
  split.
  { unfold run_test, function_operation; simpl.
    rewrite C, B, D. reflexivity. }
  pose proof (wire_delete_then_return (id operation) s2) as Wd.
  rewrite D in Wd. exact Wd.
Qed.

(** When the creation raises, the test body is not called and no DELETE
    is issued. *)
Lemma function_operation_setup_error
    (test_body : OperationSchema -> M unit) (s s1 : State) (e : exn) :
  create_operation s = (Raise e, s1) ->
  run_test function_operation test_body s = (SetupError e, s1).
Proof.
  intros C. unfold run_test, function_operation; simpl.
  rewrite C. reflexivity.
Qed.

(** *** Further properties: assertions and client calls *)


Lemma returns_raw_two_steps (t1 t2 : string) (req : Request) (s : State) :
  returns_raw (allure_step t1 (allure_step t2 (client_request req))) req s.
Proof.
  unfold returns_raw, allure_step, client_request; simpl.
  destruct (transport req (server s)) as [r w']; simpl.
  repeat split; reflexivity.
Qed.


(** *** Further properties: the fixture *)

Lemma delete_then_return_result (i : ident) (s : State) :
  fst ((delete_operation_api i ;;; ret tt) s) =
  match fst (transport (delete_request_of i) (server s)) with
  | Ok _ => Ok tt
  | Raise e => Raise e
  end.
Proof.
  unfold bind, ret, delete_operation_api, delete, allure_step, client_request,
    delete_request_of; simpl.
  match goal with
  | |- context [transport ?r ?w] => destruct (transport r w) as [[r1 | e] w1]
  end; reflexivity.
Qed.

(** X3: the code after the fixture's [yield] does not look at the
    response to its DELETE: whatever the status code, it returns
    normally; it raises only what the transport raises. *)
Theorem teardown_ignores_delete_status (operation : OperationSchema)
    (s : State) :
  fst (after_yield function_operation operation s) =
  match fst (transport (delete_request_of (id operation)) (server s)) with
  | Ok _ => Ok tt
  | Raise e => Raise e
  end.
Proof.
  unfold function_operation; cbn [after_yield].
  apply delete_then_return_result.
Qed.

(** X4: when [create_operation] raises in the fixture (the transport
    failed, or the response did not parse), the test body is not
    called and no DELETE is issued: the POST is the only request. *)
Theorem setup_failure_skips_test_and_cleanup
    (test_body : OperationSchema -> M unit) (s s1 : State) (e : exn) :
  create_operation s = (Raise e, s1) ->
  run_test function_operation test_body s = (SetupError e, s1) /\
  wire s1 = (wire s ++ [create_request_of (default_create_request s)])%list.
Proof.
  intros C. split.
  - unfold run_test, function_operation; simpl. rewrite C. reflexivity.
  - pose proof (wire_create_operation s) as Wc. rewrite C in Wc. exact Wc.
Qed.

(** *** Further properties: the delete scenario *)

Lemma assert_status_code_result (actual expected : Z) (s : State) :
  assert_status_code actual expected s =
  (if actual =? expected then Ok tt
   else Raise (AssertionError
          ("Incorrect response status code. Expected status code: " ++
           str_of_int expected ++ ". Actual status code: " ++
           str_of_int actual)),
   mkState (rng s) (server s) (wire s)
     (log s ++ [mkLog "BASE_ASSERTIONS"
                  ("Check that response status code equals to " ++
                   str_of_int expected)%string])
     (steps s ++ [("Check that response status code equals to " ++
                   str_of_int expected)%string])).
Proof.
  unfold assert_status_code, allure_step, bind, logger_info, py_assert, ret,
    raise; simpl.
  destruct (actual =? expected); reflexivity.
Qed.

(** The first half of the scenario, once the transport has answered the
    DELETE. *)
Lemma test_delete_operation_after_delete (operation : OperationSchema)
    (s : State) (r1 : Response) (w1 : W) :
  transport (delete_request_of (id operation)) (server s) = (Ok r1, w1) ->
  test_delete_operation operation s =
  (assert_status_code (status_code r1) HTTPStatus_OK ;;;
   get_response <- get_operation_api (id operation) ;;
   assert_status_code (status_code get_response) HTTPStatus_NOT_FOUND)
    (mkState (rng s) w1
       (wire s ++ [delete_request_of (id operation)])
       (log s)
       (steps s ++ ["Delete operation by id " ++ format_id (id operation);
                    "Make DELETE request to " ++ APIRoutes_str OPERATIONS ++
                    "/" ++ format_id (id operation)])).
Proof.
  intros T.
  unfold test_delete_operation at 1.
  unfold bind at 1.
  unfold delete_operation_api, delete, allure_step, client_request.
  cbn [rng server wire log steps].
  unfold delete_request_of in T. rewrite T.
  rewrite <- app_assoc. reflexivity.
Qed.

(** X5: when the transport answers both requests, the delete scenario
    passes exactly when the DELETE was answered with 200 and the GET
    that follows with 404. *)
Theorem test_delete_operation_passes_iff (operation : OperationSchema)
    (s : State) (r1 r2 : Response) (w1 w2 : W) :
  transport (delete_request_of (id operation)) (server s) = (Ok r1, w1) ->
  transport (get_request_of (id operation)) w1 = (Ok r2, w2) ->
  (fst (test_delete_operation operation s) = Ok tt <->
   status_code r1 = 200 /\ status_code r2 = 404).
Proof.
  intros T1 T2.
  rewrite (test_delete_operation_after_delete operation s r1 w1 T1).
  unfold bind at 1. rewrite assert_status_code_result.
  unfold HTTPStatus_OK.
  destruct (Z.eqb_spec (status_code r1) 200) as [E1 | N1].
  - unfold bind at 1.
    unfold get_operation_api, get, allure_step, client_request.
    cbn [rng server wire log steps].
    unfold get_request_of in T2. rewrite T2.
    rewrite assert_status_code_result. unfold HTTPStatus_NOT_FOUND.
    cbn [fst].
    destruct (Z.eqb_spec (status_code r2) 404) as [E2 | N2].
    + split; [intros _; split; assumption | reflexivity].
    + split; [intros H; discriminate H | intros [_ H]; contradiction].
  - cbn [fst].
    split; [intros H; discriminate H | intros [H _]; contradiction].
Qed.

(** X6: when the DELETE is answered with another status than 200, the
    scenario fails with the assertion's message at once: the GET is
    never issued. *)
Theorem test_delete_operation_stops_at_first_mismatch
    (operation : OperationSchema) (s : State) (r1 : Response) (w1 : W) :
  transport (delete_request_of (id operation)) (server s) = (Ok r1, w1) ->
  status_code r1 <> 200 ->
  fst (test_delete_operation operation s) =
    Raise (AssertionError
      ("Incorrect response status code. Expected status code: 200. " ++
       "Actual status code: " ++ str_of_int (status_code r1))) /\
  requests_of (test_delete_operation operation) s =
    [delete_request_of (id operation)].
Proof.
  intros T1 N1.
  unfold requests_of.
  rewrite (test_delete_operation_after_delete operation s r1 w1 T1).
  unfold bind at 1. unfold bind at 2. rewrite assert_status_code_result.
  unfold HTTPStatus_OK.
  destruct (Z.eqb_spec (status_code r1) 200) as [E1 | _]; [contradiction |].
  cbn [fst snd wire]. split; [reflexivity |].
  apply skipn_length_app.
Qed.

Lemma wire_test_delete_operation (operation : OperationSchema) (s : State) :
  exists middle : list Request,
    (middle = [] \/ middle = [get_request_of (id operation)]) /\
    wire (snd (test_delete_operation operation s)) =
      (wire s ++ [delete_request_of (id operation)] ++ middle)%list.
Proof.
  destruct (transport (delete_request_of (id operation)) (server s))
    as [[r1 | e] w1] eqn:T1.
  - rewrite (test_delete_operation_after_delete operation s r1 w1 T1).
    unfold bind at 1. rewrite assert_status_code_result.
    destruct (status_code r1 =? HTTPStatus_OK).
    + exists [get_request_of (id operation)]. split; [right; reflexivity |].
      unfold bind at 1.
      unfold get_operation_api, get, allure_step, client_request.
      cbn [rng server wire log steps].
      match goal with
      | |- context [transport ?r ?w] =>
          destruct (transport r w) as [[r2 | e2] w2]
      end.
      * rewrite assert_status_code_result. cbn [snd wire].
        rewrite <- app_assoc. reflexivity.
      * cbn [snd wire]. rewrite <- app_assoc. reflexivity.
    + exists []. split; [left; reflexivity |].
      cbn [snd wire]. reflexivity.
  - exists []. split; [left; reflexivity |].
    unfold test_delete_operation, bind, delete_operation_api, delete,
      allure_step, client_request.
    cbn [rng server wire log steps].
    unfold delete_request_of in T1. rewrite T1. reflexivity.
Qed.

(** X7: run with the fixture, the delete scenario has the Operation
    deleted twice: the requests are the POST, the scenario's DELETE,
    the GET if the scenario got that far, and the fixture's DELETE of
    the same id. *)
Theorem delete_scenario_deletes_twice (s s1 : State)
    (operation : OperationSchema) :
  create_operation s = (Ok operation, s1) ->
  exists middle : list Request,
    (middle = [] \/ middle = [get_request_of (id operation)]) /\
    wire (snd (run_test function_operation test_delete_operation s)) =
      (wire s ++
       [create_request_of (default_create_request s);
        delete_request_of (id operation)] ++
       middle ++ [delete_request_of (id operation)])%list.
Proof.
  intros C.
  destruct (wire_test_delete_operation operation s1) as [middle [Hm Wt]].
  exists middle. split; [exact Hm |].
  unfold run_test, function_operation; cbn [before_yield after_yield].
  rewrite C.
  destruct (test_delete_operation operation s1) as [call s2] eqn:B.
  pose proof (wire_delete_then_return (id operation) s2) as Wd.
  destruct ((delete_operation_api (id operation) ;;; ret tt) s2)
    as [teardown s3].
  cbn [snd] in *.
  rewrite Wd, Wt.
  pose proof (wire_create_operation s) as Wc. rewrite C in Wc.
  cbn [snd] in Wc. rewrite Wc.
  unfold delete_request_of, APIRoutes_str, value.
  rewrite <- !app_assoc. reflexivity.
Qed.

(** *** Further properties: parsing *)

Lemma is_inr_validate_field {A : Type} (f : field)
    (validator : json -> option A) (default_factory : Gen A)
    (kv : list (string * json)) (g : G) :
  is_inr (fst (validate_field f validator default_factory kv g)) =
  match lookup_field f kv with
  | Some j => is_some (validator j)
  | None => true
  end.
Proof.
  unfold validate_field, gmap, gbind, gret.
  destruct (lookup_field f kv) as [j |].
  - destruct (validator j); reflexivity.
  - destruct (default_factory g); reflexivity.
Qed.

Lemma is_inr_validate_required_id (kv : list (string * json)) :
  is_inr (validate_required_id kv) = id_ok kv.
Proof.
  unfold validate_required_id, id_ok.
  destruct (dict_get "id" kv) as [j |]; [| reflexivity].
  destruct (validate_id j); reflexivity.
Qed.

(** Whether the validation of the fields raises, read off the
    document. *)
Lemma validate_fields_is_raise (kv : list (string * json)) (g : G) :
  is_raise (fst (OperationSchema_validate_fields kv g)) =
  negb (forallb (accepts_present kv) all_fields && id_ok kv).
Proof.
  unfold OperationSchema_validate_fields, gbind, gret.
  unfold all_fields, accepts_present, field_accepts; cbn [forallb].
  rewrite <- is_inr_validate_required_id.
  rewrite <- (is_inr_validate_field F_debit validate_amount money_factory kv g).
  destruct (validate_field F_debit validate_amount money_factory kv g)
    as [d g1].
  rewrite <- (is_inr_validate_field F_credit validate_amount money_factory kv g1).
  destruct (validate_field F_credit validate_amount money_factory kv g1)
    as [c g2].
  rewrite <- (is_inr_validate_field F_category validate_str fake_category kv g2).
  destruct (validate_field F_category validate_str fake_category kv g2)
    as [cat g3].
  rewrite <- (is_inr_validate_field F_description validate_str fake_sentence
                kv g3).
  destruct (validate_field F_description validate_str fake_sentence kv g3)
    as [desc g4].
  rewrite <- (is_inr_validate_field F_transaction_date date_validate
                (fake_date None None) kv g4).
  destruct (validate_field F_transaction_date date_validate
              (fake_date None None) kv g4) as [td g5].
  destruct d, c, cat, desc, td, (validate_required_id kv); reflexivity.
Qed.


(** The validation reads a document only through the six lookups. *)
Lemma validate_fields_ext (kv1 kv2 : list (string * json)) (g : G) :
  (forall f, lookup_field f kv1 = lookup_field f kv2) ->
  dict_get "id" kv1 = dict_get "id" kv2 ->
  OperationSchema_validate_fields kv1 g = OperationSchema_validate_fields kv2 g.
Proof.
  intros L I.
  unfold OperationSchema_validate_fields, validate_field, validate_required_id,
    present, all_fields; cbn [filter].
  rewrite !L, I. reflexivity.
Qed.

Lemma dict_get_other_key (k k' : string) (v : json)
    (pre post : list (string * json)) :
  k <> k' ->
  dict_get k (pre ++ (k', v) :: post) = dict_get k (pre ++ post).
Proof.
  intros N. induction pre as [| [k0 v0] pre IH]; simpl.
  - destruct (dict_get k post); [reflexivity |].
    destruct (String.eqb_spec k k'); [contradiction | reflexivity].
  - rewrite IH. reflexivity.
Qed.

Lemma dict_get_last (k k' : string) (v : json) (kv : list (string * json)) :
  dict_get k (kv ++ [(k', v)]) =
  if String.eqb k k' then Some v else dict_get k kv.
Proof.
  induction kv as [| [k0 v0] kv IH]; simpl.
  - reflexivity.
  - rewrite IH. destruct (String.eqb k k'); reflexivity.
Qed.

(** X9: an entry under a key that is none of the names the schema
    knows changes nothing: the document parses to the same result,
    from the same draws, with or without it, wherever it stands. *)
Theorem unknown_keys_are_ignored (pre post : list (string * json))
    (k : string) (v : json) (g : G) :
  k <> "id" ->
  (forall f, k <> alias f /\ k <> field_name f) ->
  OperationSchema_validate_fields (pre ++ (k, v) :: post) g =
  OperationSchema_validate_fields (pre ++ post) g.
Proof.
  intros Nid Nf. apply validate_fields_ext.
  - intros f. unfold lookup_field.
    destruct (Nf f) as [Na Nn].
    rewrite !dict_get_other_key by (intros E; symmetry in E; contradiction).
    reflexivity.
  - apply dict_get_other_key. intros E; symmetry in E; contradiction.
Qed.


Lemma validate_amount_round_trip (a : option amount) :
  validate_amount (json_or_null (option_map amount_to_json a)) = Some a.
Proof. destruct a as [[q | str] |]; reflexivity. Qed.


(** X12: parsing draws random values only for absent fields: a
    document that holds the five fields leaves the generator where it
    was, whether it parses or not. *)
Theorem complete_document_draws_nothing (kv : list (string * json)) (g : G) :
  forallb (present kv) all_fields = true ->
  snd (OperationSchema_validate_fields kv g) = g.
Proof.
  unfold all_fields, present; cbn [forallb].
  intros H.
  repeat (apply andb_true_iff in H; destruct H as [? H]).
  unfold OperationSchema_validate_fields, validate_field, gbind, gret.
  repeat match goal with
         | P : is_some (lookup_field ?f kv) = true |- _ =>
             destruct (lookup_field f kv); [clear P | discriminate P]
         end.
  repeat match goal with
         | |- context [match ?v ?x with Some _ => _ | None => _ end] =>
             destruct (v x)
         end; reflexivity.
Qed.

(** *** Further properties: URLs *)

Lemma str_of_int_injective (z z' : Z) :
  str_of_int z = str_of_int z' -> z = z'.
Proof.
  unfold str_of_int. intros E.
  apply DecimalZ.to_int_inj.
  assert (R : forall n, NilZero.int_of_string (NilZero.string_of_int (Z.to_int n))
                        = Some (Z.to_int n)).
  { intros n. apply NilZero.isi; destruct n; simpl;
      intros H; try discriminate H; injection H as H;
      exact (DecimalPos.Unsigned.to_uint_nonnil _ H). }
  pose proof (R z) as Rz. rewrite E, R in Rz.
  injection Rz as Rz. symmetry. exact Rz.
Qed.

(** X13: two integer ids whose Operation URLs are the same are the same
    id; an integer id and the string of its digits share one URL. *)
Theorem operation_url_determines_integer_id (z z' : Z) :
  (url (get_request_of (IdInt z)) = url (get_request_of (IdInt z')) ->
   z = z') /\
  url (get_request_of (IdStr (str_of_int z))) = url (get_request_of (IdInt z)).
Proof.
  split; [| reflexivity].
  unfold get_request_of, APIRoutes_str, value; cbn [url format_id].
  intros E. apply str_of_int_injective.
  simpl in E. repeat (injection E as E). exact E.
Qed.

(** *** Further properties: the list and the create scenario *)

(** The list scenario, once the transport has answered the GET: the
    call itself logs nothing. *)
Lemma test_get_operations_after_get (c : Checks) (s : State) (r : Response)
    (w1 : W) :
  transport (mkRequest GET "/fakebank/accounts" None) (server s) = (Ok r, w1) ->
  exists s1 : State,
    log s1 = log s /\
    test_get_operations c s =
    (assert_status_code (status_code r) HTTPStatus_OK ;;;
     instance <- lift_result (response_json c r) ;;
     validate_json_schema c instance (OperationsSchema_model_json_schema c))
      s1.
Proof.
  intros T. eexists. split.
  2: { unfold test_get_operations at 1.
       unfold bind at 1.
       unfold get_operations_api, get, allure_step, client_request.
       cbn [rng server wire log steps value].
       rewrite T. reflexivity. }
  reflexivity.
Qed.


Lemma log_validate_json (body : string) (s : State) :
  log (snd (OperationSchema_model_validate_json body s)) = log s.
Proof.
  unfold OperationSchema_model_validate_json, raise.
  destruct (json_loads body) as [[| b | z | q | str | l | kv] |]; simpl;
    try reflexivity.
  unfold bind, lift_gen, lift_result.
  destruct (OperationSchema_validate_fields kv (rng s)) as [r g'].
  destruct r; reflexivity.
Qed.

(** The create scenario, once the transport has answered the POST. *)
Lemma test_create_operation_after_post (c : Checks) (s : State)
    (r : Response) (w1 : W) :
  transport (create_request_of (default_create_request s)) (server s)
    = (Ok r, w1) ->
  test_create_operation c s =
  (operation <- OperationSchema_model_validate_json (text r) ;;
   assert_status_code (status_code r) HTTPStatus_CREATED ;;;
   assert_create_operation c operation (default_create_request s) ;;;
   instance <- lift_result (response_json c r) ;;
   validate_json_schema c instance (OperationSchema_model_json_schema c))
    (after_create_request s w1).
Proof.
  unfold after_create_request, default_create_request, create_request_of.
  unfold test_create_operation. unfold bind at 1. unfold lift_gen.
  destruct (CreateOperationSchema_init create_no_args (rng s))
    as [request g']; cbn [fst snd].
  intros T.
  unfold bind at 1.
  unfold create_operation_api, post, allure_step, client_request.
  cbn [rng server wire log steps].
  rewrite T. rewrite <- app_assoc. reflexivity.
Qed.


(** *** Fake data

    What the suite relies on from the generator: a float drawn between
    two bounds lies between them, and a position drawn in a sequence
    is a position of that sequence. *)

Hypothesis pyfloat_in_range :
  forall (min_value max_value : Q) (g : G),
    (min_value <= max_value)%Q ->
    (min_value <= fst (pyfloat min_value max_value g) <= max_value)%Q.

Hypothesis random_index_in_range :
  forall (n : nat) (g : G), (0 < n)%nat -> (fst (random_index n g) < n)%nat.

(** C9: [fake.money()] with its default bounds returns a number in
    [[-100, 100]]. *)
Theorem fake_money_default_range (g : G) :
  (-100 # 1 <= fst (fake_money None None g) <= 100 # 1)%Q.
Proof using pyfloat_in_range.
  unfold fake_money, from_default.
  apply pyfloat_in_range. discriminate.
Qed.

(** C10: [fake.category()] returns one of the five categories, the one
    at the position that the generator draws; the five are distinct,
    so each of them is returned for exactly one of the five positions
    and a uniform draw of the position is a uniform draw of the
    category. *)
Theorem fake_category_in_set (g : G) :
  categories = ["food"; "taxi"; "fuel"; "beauty"; "restaurants"] /\
  In (fst (fake_category g)) categories /\
  fst (fake_category g) = nth (fst (random_index 5 g)) categories "" /\
  NoDup categories /\
  (forall c, In c categories ->
     exists i, (i < 5)%nat /\ nth i categories "" = c /\
               forall j, (j < 5)%nat -> nth j categories "" = c -> j = i).
Proof using random_index_in_range.
  assert (P : fst (fake_category g) =
              nth (fst (random_index 5 g)) categories "").
  { unfold fake_category, random_element; simpl.
    destruct (random_index 5 g); reflexivity. }
  split; [reflexivity |].
  split.
  { rewrite P. apply nth_In. simpl.
    apply random_index_in_range. repeat constructor. }
  split; [exact P |].
  split.
  { unfold categories.
    repeat (constructor;
            [simpl; intros H;
             repeat (destruct H as [H | H]; [discriminate H |]); exact H |]).
    constructor. }
  intros c I. simpl in I.
  destruct I as [I | [I | [I | [I | [I | []]]]]]; subst c;
    [exists 0%nat | exists 1%nat | exists 2%nat | exists 3%nat | exists 4%nat];
    (repeat split; [lia |]);
    intros j Lj Ej;
    do 5 (destruct j as [| j]; [first [reflexivity | discriminate Ej] |]);
    lia.
Qed.

(** X14: the request that [create_operation] builds and posts has a
    number in [[-100, 100]] for [debit] and for [credit], drawn one
    after the other, and one of the five categories: its payload has
    no [null]. *)
Theorem default_create_request_is_in_range (s : State) :
  exists (q1 q2 : Q) (c : string),
    (-100 # 1 <= q1 <= 100 # 1)%Q /\
    (-100 # 1 <= q2 <= 100 # 1)%Q /\
    In c categories /\
    json_body (create_request_of (default_create_request s)) =
      Some (JObj
        [("debit", JFloat q1);
         ("credit", JFloat q2);
         ("category", JStr c);
         ("description", JStr (description (default_create_request s)));
         ("transactionDate",
           JStr (isoformat (transaction_date (default_create_request s))))]).
Proof using pyfloat_in_range random_index_in_range.
  unfold default_create_request, CreateOperationSchema_init, field_or_default,
    money_factory, gmap, gbind, gret, create_no_args.
  cbn [arg_debit arg_credit arg_category arg_description arg_transaction_date].
  unfold fake_money, fake_category, fake_sentence, fake_date, random_element,
    from_default.
  assert (B : (-100 # 1 <= 100 # 1)%Q) by discriminate.
  pose proof (pyfloat_in_range _ _ (rng s) B) as P1.
  destruct (pyfloat (-100 # 1) (100 # 1) (rng s)) as [q1 g1].
  pose proof (pyfloat_in_range _ _ g1 B) as P2.
  destruct (pyfloat (-100 # 1) (100 # 1) g1) as [q2 g2].
  assert (L : (0 < List.length categories)%nat) by (simpl; lia).
  pose proof (random_index_in_range _ g2 L) as P3.
  destruct (random_index (List.length categories) g2) as [i g3].
  destruct (faker_sentence g3) as [sentence g4].
  destruct (date_between (-30) 0 g4) as [d g5].
  cbn [fst] in *.
  exists q1, q2, (nth i categories "").
  split; [exact P1 |]. split; [exact P2 |].
  split; [apply nth_In; exact P3 |].
  reflexivity.
Qed.

End Suite.

(** ** The suite on the stand-in collaborators *)

Notation demo_state := (mkState nat nat 0%nat 0%nat [] [] []).

Notation demo_create_operation :=
  (create_operation nat demo_pyfloat demo_random_index demo_sentence
     demo_date_between demo_json_loads demo_date_validate nat demo_transport).

Notation demo_validate_json :=
  (OperationSchema_model_validate_json nat demo_pyfloat demo_random_index
     demo_sentence demo_date_between demo_json_loads demo_date_validate nat).

Notation demo_update_init :=
  (UpdateOperationSchema_init nat demo_pyfloat demo_random_index demo_sentence
     demo_date_between).

Notation demo_function_operation :=
  (function_operation nat demo_pyfloat demo_random_index demo_sentence
     demo_date_between demo_json_loads demo_date_validate nat demo_transport).

Lemma demo_pyfloat_in_range (min_value max_value : Q) (g : nat) :
  (min_value <= max_value)%Q ->
  (min_value <= fst (demo_pyfloat min_value max_value g) <= max_value)%Q.
Proof.
  intros H. unfold demo_pyfloat; simpl.
  destruct (Nat.even g); split;
    first [apply Qle_refl | exact H].
Qed.

Lemma demo_random_index_in_range (n g : nat) :
  (0 < n)%nat -> (fst (demo_random_index n g) < n)%nat.
Proof.
  intros H. unfold demo_random_index; simpl.
  apply Nat.mod_upper_bound. lia.
Qed.

(** *** Concrete runs *)

Example str_of_int_examples :
  str_of_int 200 = "200" /\ str_of_int 0 = "0" /\ str_of_int (-5) = "-5".
Proof. repeat split; reflexivity. Qed.

Example isoformat_example : isoformat (mkDate 2024 5 1) = "2024-05-01".
Proof. reflexivity. Qed.

Example get_operation_7_url :
  requests_of nat nat (get_operation_api nat nat demo_transport (IdInt 7))
    demo_state
  = [mkRequest GET "/fakebank/accounts/7" None].
Proof. reflexivity. Qed.

Example status_404_against_200 :
  fst (assert_status_code nat nat 404 200 demo_state) =
  Raise (AssertionError
    "Incorrect response status code. Expected status code: 200. Actual status code: 404").
Proof. reflexivity. Qed.

Example status_200_against_200 :
  assert_status_code nat nat 200 200 demo_state =
  (Ok tt,
   mkState nat nat 0%nat 0%nat [] 
     [mkLog "BASE_ASSERTIONS" "Check that response status code equals to 200"]
     ["Check that response status code equals to 200"]).
Proof. reflexivity. Qed.

Example null_id_does_not_parse :
  fst (demo_validate_json "null id" demo_state) =
  Raise (ValidationError [("id", invalid_value)]).
Proof. reflexivity. Qed.

Example absent_id_does_not_parse :
  fst (demo_validate_json "not found" demo_state) =
  Raise (ValidationError [("id", missing)]).
Proof. reflexivity. Qed.

Example not_json_does_not_parse :
  fst (demo_validate_json "<html>" demo_state) =
  Raise (ValidationError [("", json_invalid)]).
Proof. reflexivity. Qed.

(** A response with status 500 whose body is an Operation is parsed and
    returned like any other. *)
Example create_operation_on_status_500 :
  fst (create_operation nat demo_pyfloat demo_random_index demo_sentence
         demo_date_between demo_json_loads demo_date_validate nat
         demo_transport_500 demo_state)
  = Ok demo_operation.
Proof. reflexivity. Qed.

(** *** Witnesses and the counterexample *)

(** C1 as stated fails: an update request built with [category="fuel"]
    alone has only [category] in its set of given fields, and the PATCH
    body still carries the four other fields, filled by their default
    factories. *)
Lemma update_sends_fields_left_unset :
  u_model_fields_set (fst (demo_update_init only_category_fuel 0%nat))
    = [F_category] /\
  map json_body
    (requests_of nat nat
       (update_operation_api nat nat demo_transport (IdInt 7)
          (fst (demo_update_init only_category_fuel 0%nat)))
       demo_state)
  = [Some (JObj [("debit", JFloat (-100 # 1));
                 ("credit", JFloat (100 # 1));
                 ("category", JStr "fuel");
                 ("description", JStr "Agree style.");
                 ("transactionDate", JStr "2024-05-01")])].
Proof. split; reflexivity. Qed.

Lemma parsed_operation_has_id_witness :
  exists (kv : list (string * json)) (j : json),
    demo_json_loads "operation 7" = Some (JObj kv) /\
    In ("id", j) kv /\
    j <> JNull /\
    dict_get "id" kv = Some j /\
    validate_id j = Some (IdInt 7).
Proof.
  exact (parsed_operation_has_id nat demo_pyfloat demo_random_index
           demo_sentence demo_date_between demo_json_loads demo_date_validate
           nat "operation 7" demo_state demo_state demo_operation eq_refl).
Defined.

Lemma create_operation_parses_any_response_witness :
  demo_create_operation demo_state =
  demo_validate_json "operation 7"
    (after_create_request nat demo_pyfloat demo_random_index demo_sentence
       demo_date_between nat demo_state 1%nat).
Proof.
  exact (proj1 (proj2 (proj2
    (create_operation_parses_any_response nat demo_pyfloat demo_random_index
       demo_sentence demo_date_between demo_json_loads demo_date_validate
       nat demo_transport demo_state
       (mkResponse 201 "Created" "operation 7") 1%nat eq_refl)))).
Defined.

Lemma function_operation_deletes_after_test_witness :
  exists (call teardown : result unit) (s2 s3 : State nat nat),
    wire nat nat (snd (demo_create_operation demo_state)) =
      [create_request_of
         (default_create_request nat demo_pyfloat demo_random_index
            demo_sentence demo_date_between nat demo_state)] /\
    assert_status_code nat nat 404 200 (snd (demo_create_operation demo_state))
      = (call, s2) /\
    run_test nat nat demo_function_operation
      (fun _ => assert_status_code nat nat 404 200) demo_state
      = (Ran call teardown, s3) /\
    wire nat nat s3 =
      (wire nat nat s2 ++ [mkRequest DELETE "/fakebank/accounts/7" None])%list.
Proof.
  exact (function_operation_deletes_after_test nat demo_pyfloat
           demo_random_index demo_sentence demo_date_between demo_json_loads
           demo_date_validate nat demo_transport
           (fun _ => assert_status_code nat nat 404 200)
           demo_state (snd (demo_create_operation demo_state))
           demo_operation eq_refl).
Defined.

Lemma fake_money_default_range_witness :
  (-100 # 1 <= fst (fake_money nat demo_pyfloat None None 0%nat) <= 100 # 1)%Q.
Proof.
  exact (fake_money_default_range nat demo_pyfloat demo_pyfloat_in_range 0%nat).
Defined.

Lemma fake_category_in_set_witness :
  In (fst (fake_category nat demo_random_index 7%nat)) categories.
Proof.
  exact (proj1 (proj2
    (fake_category_in_set nat demo_random_index demo_random_index_in_range
       7%nat))).
Defined.

(** *** Witnesses of the further properties *)

Notation demo_validate_fields :=
  (OperationSchema_validate_fields nat demo_pyfloat demo_random_index
     demo_sentence demo_date_between demo_date_validate).

Notation demo_default_create_request :=
  (default_create_request nat demo_pyfloat demo_random_index demo_sentence
     demo_date_between nat).

Example assert_equal_names_the_field :
  fst (assert_equal nat nat String.eqb (fun v => v) "taxi" "fuel" "category"
         demo_state)
  = Raise (AssertionError
      ("Incorrect value: " ++ dquote ++ "category" ++ dquote ++
       ". Expected value: fuel. Actual value: taxi")).
Proof. reflexivity. Qed.

(** A response that holds nothing but an [id] is an Operation: the five
    fields are drawn. *)
Example only_an_id_parses :
  demo_validate_fields [("id", JInt 7)] 0%nat
  = (Ok (mkOperation
           (mkCreate (Some (AFloat (-100 # 1))) (Some (AFloat (100 # 1)))
                     "fuel" "Agree style." (mkDate 2024 5 1) [])
           (IdInt 7)),
     5%nat).
Proof. reflexivity. Qed.

Lemma setup_failure_skips_test_and_cleanup_witness :
  run_test nat nat
    (function_operation nat demo_pyfloat demo_random_index demo_sentence
       demo_date_between demo_json_loads demo_date_validate nat
       demo_transport_down)
    (test_delete_operation nat nat demo_transport_down) demo_state
  = (SetupError (TransportError "connection refused"),
     snd (create_operation nat demo_pyfloat demo_random_index demo_sentence
            demo_date_between demo_json_loads demo_date_validate nat
            demo_transport_down demo_state)) /\
  wire nat nat
    (snd (create_operation nat demo_pyfloat demo_random_index demo_sentence
            demo_date_between demo_json_loads demo_date_validate nat
            demo_transport_down demo_state))
  = ([] ++ [create_request_of (demo_default_create_request demo_state)])%list.
Proof.
  exact (setup_failure_skips_test_and_cleanup nat demo_pyfloat
           demo_random_index demo_sentence demo_date_between demo_json_loads
           demo_date_validate nat demo_transport_down
           (test_delete_operation nat nat demo_transport_down)
           demo_state _ (TransportError "connection refused") eq_refl).
Defined.

Lemma test_delete_operation_passes_iff_witness :
  fst (test_delete_operation nat nat demo_transport demo_operation demo_state)
  = Ok tt.
Proof.
  exact (proj2
    (test_delete_operation_passes_iff nat nat demo_transport demo_operation
       demo_state (mkResponse 200 "OK" "null id")
       (mkResponse 404 "Not Found" "not found") 1%nat 2%nat eq_refl eq_refl)
    (conj eq_refl eq_refl)).
Defined.

Lemma test_delete_operation_stops_at_first_mismatch_witness :
  requests_of nat nat
    (test_delete_operation nat nat demo_transport_500 demo_operation)
    demo_state
  = [delete_request_of (IdInt 7)].
Proof.
  refine (proj2
    (test_delete_operation_stops_at_first_mismatch nat nat demo_transport_500
       demo_operation demo_state
       (mkResponse 500 "Internal Server Error" "operation 7") 1%nat
       eq_refl _)).
  simpl. discriminate.
Defined.

Lemma delete_scenario_deletes_twice_witness :
  exists middle : list Request,
    (middle = [] \/ middle = [get_request_of (IdInt 7)]) /\
    wire nat nat
      (snd (run_test nat nat demo_function_operation
              (test_delete_operation nat nat demo_transport) demo_state))
    = ([] ++
       [create_request_of (demo_default_create_request demo_state);
        delete_request_of (IdInt 7)] ++
       middle ++ [delete_request_of (IdInt 7)])%list.
Proof.
  exact (delete_scenario_deletes_twice nat demo_pyfloat demo_random_index
           demo_sentence demo_date_between demo_json_loads demo_date_validate
           nat demo_transport demo_state
           (snd (demo_create_operation demo_state)) demo_operation eq_refl).
Defined.

Lemma unknown_keys_are_ignored_witness :
  demo_validate_fields
    ([("id", JInt 7)] ++ ("detail", JStr "created") :: [("category", JStr "taxi")])
    0%nat
  = demo_validate_fields ([("id", JInt 7)] ++ [("category", JStr "taxi")]) 0%nat.
Proof.
  refine (unknown_keys_are_ignored nat demo_pyfloat demo_random_index
            demo_sentence demo_date_between demo_date_validate
            [("id", JInt 7)] [("category", JStr "taxi")] "detail"
            (JStr "created") 0%nat _ _).
  - discriminate.
  - intros f; destruct f; split; discriminate.
Defined.


Lemma complete_document_draws_nothing_witness :
  snd (demo_validate_fields
         [("debit", JStr "ten"); ("credit", JNull); ("category", JInt 3);
          ("description", JStr "cab ride");
          ("transaction_date", JStr "2024-05-01")]
         3%nat)
  = 3%nat.
Proof.
  exact (complete_document_draws_nothing nat demo_pyfloat demo_random_index
           demo_sentence demo_date_between demo_date_validate
           [("debit", JStr "ten"); ("credit", JNull); ("category", JInt 3);
            ("description", JStr "cab ride");
            ("transaction_date", JStr "2024-05-01")]
           3%nat eq_refl).
Defined.

Lemma default_create_request_is_in_range_witness :
  exists (q1 q2 : Q) (c : string),
    (-100 # 1 <= q1 <= 100 # 1)%Q /\
    (-100 # 1 <= q2 <= 100 # 1)%Q /\
    In c categories /\
    json_body (create_request_of (demo_default_create_request demo_state)) =
      Some (JObj
        [("debit", JFloat q1);
         ("credit", JFloat q2);
         ("category", JStr c);
         ("description",
           JStr (description (demo_default_create_request demo_state)));
         ("transactionDate",
           JStr (isoformat
                   (transaction_date (demo_default_create_request demo_state))))]).
Proof.
  exact (default_create_request_is_in_range nat demo_pyfloat demo_random_index
           demo_sentence demo_date_between nat demo_pyfloat_in_range
           demo_random_index_in_range demo_state).
Defined.

Notation demo_checks :=
  (mkChecks nat nat demo_response_json demo_jsonschema_validate
     (JObj [("type", JStr "array")]) (JObj [("type", JStr "object")])
     (fun _ _ => ret nat nat tt)).


